(** * The fixture [test-python-errors.py] as data

    The repository's only source file is a static text fixture: a list of
    numbered, commented code fragments, each one a deliberately broken piece
    of Python.  Nothing in it runs.  This development embeds the text
    character by character and proves the structural facts the
    natural-language specification states about it: how it divides into
    lines and labelled fragments, what the labels name, which characters it
    is made of. *)

From Stdlib Require Import Strings.String Strings.Ascii Strings.Byte.
From Stdlib Require Import Lists.List Bool.Bool Arith.Arith NArith.NArith.
From Stdlib Require Import Numbers.DecimalString Numbers.DecimalNat micromega.Lia.
Import ListNotations.

Local Open Scope string_scope.
Local Open Scope list_scope.

(** ** Characters that cannot be written inside a literal *)

Definition LF : ascii := "010"%char.
Definition HT : ascii := "009"%char.
Definition DQ : ascii := "034"%char.
Definition SP : ascii := " "%char.

Definition lf : string := String LF EmptyString.
Definition ht : string := String HT EmptyString.
Definition dq : string := String DQ EmptyString.

(** ** The text of the file

    One row per source line, in file order.  [lf] is written wherever the
    file has a line feed; the last line has none.  Double quotes and the one
    tab are spelled [dq] and [ht]. *)

Definition flatten (segments : list string) : string :=
  fold_right append EmptyString segments.

Definition test_python_errors : string := flatten [
  "# Python test file with intentional errors for testing error detection"; lf;
  lf;
  "# 1. Syntax Error - Invalid indentation"; lf;
  "def broken_function():"; lf;
  "print("; dq; "This should be indented"; dq; ")"; lf;
  "    return True"; lf;
  lf;
  "# 2. Syntax Error - Missing colon"; lf;
  "def another_broken_function()"; lf;
  "    return False"; lf;
  lf;
  "# 3. Name Error - Undefined variable"; lf;
  "def use_undefined_variable():"; lf;
  "    print(undefined_variable)"; lf;
  "    return result"; lf;
  lf;
  "# 4. Type Error - Unsupported operation"; lf;
  "def type_error_example():"; lf;
  "    return "; dq; "string"; dq; " + 5"; lf;
  lf;
  "# 5. Syntax Error - Invalid dictionary"; lf;
  "broken_dict = {"; lf;
  "    "; dq; "key1"; dq; ": "; dq; "value1"; dq; ","; lf;
  "    "; dq; "key2"; dq; ": "; dq; "value2"; dq; lf;
  "    "; dq; "key3"; dq; ": "; dq; "value3"; dq; "  # Missing comma"; lf;
  "}"; lf;
  lf;
  "# 6. Import Error - Non-existent module"; lf;
  "import non_existent_module"; lf;
  lf;
  "# 7. Syntax Error - Invalid function call"; lf;
  "def invalid_call():"; lf;
  "    return some_function(param1, param2,)  # Trailing comma in wrong place"; lf;
  lf;
  "# 8. Syntax Error - Unclosed string"; lf;
  "broken_string = "; dq; "This string is not closed"; lf;
  lf;
  "# 9. Indentation Error - Mixed tabs and spaces"; lf;
  "def mixed_indentation():"; lf;
  "    if True:"; lf;
  "        print("; dq; "spaces"; dq; ")"; lf;
  ht; "print("; dq; "tabs"; dq; ")  # This line uses tabs"; lf;
  lf;
  "# 10. Syntax Error - Invalid assignment"; lf;
  "5 = variable_name" ].

(** The file as the bytes stored on disk. *)
Definition file_bytes : list byte := list_byte_of_string test_python_errors.

(** ** Lines

    [split_lines] cuts a text at every line feed, as [str.split] does with
    a line-feed separator: a text with [k] line feeds gives [k + 1] lines,
    the last one empty when the text ends in a line feed.  [join_lines] puts
    a line feed between consecutive lines. *)

Fixpoint split_lines (s : string) : list string :=
  match s with
  | EmptyString => [EmptyString]
  | String c rest =>
      if Ascii.eqb c LF then EmptyString :: split_lines rest
      else match split_lines rest with
           | [] => [String c EmptyString]
           | line :: lines => String c line :: lines
           end
  end.

Fixpoint join_lines (lines : list string) : string :=
  match lines with
  | [] => EmptyString
  | [line] => line
  | line :: more => line ++ lf ++ join_lines more
  end.

Definition file_lines : list string := split_lines test_python_errors.

(** Line [i] of the file, counted from 1 as an editor does. *)
Definition line_at (i : nat) : string := nth (i - 1) file_lines EmptyString.

(** ** Scanning a line *)

Fixpoint all_chars (p : ascii -> bool) (s : string) : bool :=
  match s with
  | EmptyString => true
  | String c rest => p c && all_chars p rest
  end.

Fixpoint any_char (p : ascii -> bool) (s : string) : bool :=
  match s with
  | EmptyString => false
  | String c rest => p c || any_char p rest
  end.

(** The longest prefix whose characters satisfy [p], and what follows it. *)
Fixpoint span (p : ascii -> bool) (s : string) : string * string :=
  match s with
  | EmptyString => (EmptyString, EmptyString)
  | String c rest =>
      if p c
      then let (taken, tail) := span p rest in (String c taken, tail)
      else (EmptyString, s)
  end.

Fixpoint drop (n : nat) (s : string) : string :=
  match n, s with
  | S k, String _ rest => drop k rest
  | _, _ => s
  end.

Definition push (run : string) (done : list string) : list string :=
  match run with
  | EmptyString => done
  | String _ _ => run :: done
  end.

(** [runs_from p s] is the run of [p]-characters at the head of [s] (empty
    when [s] does not start with one) and the finished runs after it. *)
Fixpoint runs_from (p : ascii -> bool) (s : string) : string * list string :=
  match s with
  | EmptyString => (EmptyString, [])
  | String c rest =>
      let (run, done) := runs_from p rest in
      if p c then (String c run, done) else (EmptyString, push run done)
  end.

(** The maximal runs of [p]-characters of [s], left to right. *)
Definition runs (p : ascii -> bool) (s : string) : list string :=
  let (run, done) := runs_from p s in push run done.

Definition code (c : ascii) : nat := nat_of_ascii c.

Definition between (lo hi : nat) (c : ascii) : bool :=
  ((lo <=? code c) && (code c <=? hi))%nat.

Definition is_digit : ascii -> bool := between 48 57.
Definition is_upper : ascii -> bool := between 65 90.
Definition is_lower : ascii -> bool := between 97 122.
Definition is_letter (c : ascii) : bool := is_upper c || is_lower c.
Definition is_ident_char (c : ascii) : bool :=
  is_letter c || is_digit c || Ascii.eqb c "_".
Definition is_blank_char (c : ascii) : bool :=
  Ascii.eqb c SP || Ascii.eqb c HT.
Definition is_lf (c : ascii) : bool := Ascii.eqb c LF.

Definition to_lower (c : ascii) : ascii :=
  if is_upper c then ascii_of_nat (code c + 32) else c.

Fixpoint lowercase (s : string) : string :=
  match s with
  | EmptyString => EmptyString
  | String c rest => String (to_lower c) (lowercase rest)
  end.

Definition is_blank (s : string) : bool := all_chars is_blank_char s.

Definition lstrip (s : string) : string := snd (span is_blank_char s).

(** The white space a line starts with. *)
Definition leading_ws (line : string) : string := fst (span is_blank_char line).

Definition contains (p s : string) : bool :=
  match index 0 p s with Some _ => true | None => false end.

Definition mem (x : string) (l : list string) : bool :=
  existsb (String.eqb x) l.

Definition count {A : Type} (p : A -> bool) (l : list A) : nat :=
  length (filter p l).

(** The columns (from 0) at which [c] stands in [s]. *)
Fixpoint positions_from (i : nat) (c : ascii) (s : string) : list nat :=
  match s with
  | EmptyString => []
  | String d rest =>
      if Ascii.eqb d c then i :: positions_from (S i) c rest
      else positions_from (S i) c rest
  end.

Definition positions (c : ascii) (s : string) : list nat :=
  positions_from 0 c s.

Definition count_char (c : ascii) (s : string) : nat :=
  length (positions c s).

(** ** Fragment headers

    A header is a comment line of the form [# n. title], with [n] written in
    decimal.  [label n] is the text such a line begins with;
    [header_number] reads the number back from a line, and answers [None]
    for every line that is not of that form (the introductory comment on
    line 1 among them). *)

Definition label (n : nat) : string :=
  "# " ++ NilEmpty.string_of_uint (Nat.to_uint n) ++ ".".

Definition header_number (line : string) : option nat :=
  match line with
  | String "#" (String " " rest) =>
      match span is_digit rest with
      | (String d ds, String "." _) =>
          option_map Nat.of_uint (NilEmpty.uint_of_string (String d ds))
      | _ => None
      end
  | _ => None
  end.

Definition is_header (line : string) : bool :=
  match header_number line with Some _ => true | None => false end.

Definition begins_with (p line : string) : bool := prefix p line.

(** The numbers of the header lines, in file order. *)
Definition header_numbers (lines : list string) : list nat :=
  flat_map (fun line => match header_number line with
                        | Some n => [n]
                        | None => []
                        end) lines.

(** The first line, counted from [i], that satisfies [p]. *)
Fixpoint find_line (p : string -> bool) (i : nat) (lines : list string)
  : option nat :=
  match lines with
  | [] => None
  | line :: more => if p line then Some i else find_line p (S i) more
  end.

(** The line of the file (from 1) that begins with [label n]. *)
Definition header_line (n : nat) : option nat :=
  find_line (begins_with (label n)) 1 file_lines.

(** What a header says after its label: [# 2. Syntax Error - Missing colon]
    has the title [Syntax Error - Missing colon], which names the error
    kind [Syntax Error] and the mistake [Missing colon]. *)
Definition title (line : string) : string :=
  match line with
  | String "#" (String " " rest) =>
      match snd (span is_digit rest) with
      | String "." after => lstrip after
      | _ => EmptyString
      end
  | _ => EmptyString
  end.

Definition cut_at (sep s : string) : option (string * string) :=
  match index 0 sep s with
  | Some i => Some (substring 0 i s, drop (i + String.length sep) s)
  | None => None
  end.

Definition error_kind (line : string) : string :=
  match cut_at " - " (title line) with
  | Some (kind, _) => kind
  | None => EmptyString
  end.

Definition mistake (line : string) : string :=
  match cut_at " - " (title line) with
  | Some (_, what) => what
  | None => title line
  end.

(** ** Fragments

    A fragment is a header together with the lines that follow it up to the
    next header (or the end of the file).  Lines before the first header
    form the preamble. *)

Record fragment : Type := {
  number : nat;          (* the n of "# n." *)
  start  : nat;          (* line of the header, from 1 *)
  header : string;       (* the header line *)
  body   : list string   (* the lines between this header and the next *)
}.

Fixpoint group (i : nat) (lines : list string)
  : list string * list fragment :=
  match lines with
  | [] => ([], [])
  | line :: more =>
      let (pre, frags) := group (S i) more in
      match header_number line with
      | Some n =>
          ([], {| number := n; start := i; header := line; body := pre |}
               :: frags)
      | None => (line :: pre, frags)
      end
  end.

Definition preamble : list string := fst (group 1 file_lines).
Definition fragments : list fragment := snd (group 1 file_lines).

Definition fragment_no (n : nat) : option fragment :=
  find (fun f => (number f =? n)%nat) fragments.

(** The snippet of a fragment: its lines that carry text. *)
Definition snippet (f : fragment) : list string :=
  filter (fun line => negb (is_blank line)) (body f).

(** ** The classes of mistake listed by the specification

    This part follows the words of the specification, not the file: the
    specification says each fragment illustrates "one class of syntax or
    semantic mistake" and lists nine of them.  [mistake_class] is that
    list, [class_name] the words the list uses. *)

Inductive mistake_class : Type :=
  | BadIndentation
  | MissingColon
  | UndefinedName
  | TypeMismatch
  | MalformedLiteral
  | BadImport
  | UnclosedString
  | MixedWhitespace
  | InvalidAssignmentTarget.

Definition class_name (c : mistake_class) : string :=
  match c with
  | BadIndentation => "bad indentation"
  | MissingColon => "missing colon"
  | UndefinedName => "undefined name"
  | TypeMismatch => "type mismatch"
  | MalformedLiteral => "malformed literal"
  | BadImport => "bad import"
  | UnclosedString => "unclosed string"
  | MixedWhitespace => "mixed whitespace"
  | InvalidAssignmentTarget => "invalid assignment target"
  end.

Definition spec_classes : list mistake_class :=
  [BadIndentation; MissingColon; UndefinedName; TypeMismatch;
   MalformedLiteral; BadImport; UnclosedString; MixedWhitespace;
   InvalidAssignmentTarget].

(** *** When a header names a class

    The headers and the list do not use the same words, so the two are
    compared word by word, ignoring case.  A header names a class when one
    of the words of its title is one of the words of the class name, or is
    a special case of one ([broader]).  The two adjectives that only say
    that something is wrong, and not what, identify no class: without that,
    every header saying "Invalid ..." would name the class "invalid
    assignment target". *)

Definition words (s : string) : list string :=
  map lowercase (runs is_letter s).

Definition qualifiers : list string := ["bad"; "invalid"].

Definition class_words (c : mistake_class) : list string :=
  filter (fun w => negb (mem w qualifiers)) (words (class_name c)).

(** A dictionary display is a literal, a variable is a name, tabs and
    spaces are white space. *)
Definition broader (w : string) : list string :=
  if String.eqb w "dictionary" then ["literal"]
  else if String.eqb w "variable" then ["name"]
  else if String.eqb w "tabs" || String.eqb w "spaces" then ["whitespace"]
  else [].

Definition names (line : string) (c : mistake_class) : bool :=
  existsb (fun w => existsb (fun v => mem v (class_words c)) (w :: broader w))
          (words (title line)).

Definition classes_named (line : string) : list mistake_class :=
  filter (names line) spec_classes.

(** ** Names a fragment introduces, and names it mentions

    A line introduces a name when it is a [def] or an [import] of that name
    or assigns to it.  A fragment mentions every identifier-shaped token of
    its header and its body, comments and string contents included. *)

Definition starts_name (x : string) : bool :=
  match x with
  | String c _ => is_letter c || Ascii.eqb c "_"
  | EmptyString => false
  end.

Definition name_at (s : string) : option string :=
  let x := fst (span is_ident_char (lstrip s)) in
  if starts_name x then Some x else None.

Definition is_assignment (s : string) : bool :=
  match s with
  | String "=" (String "=" _) => false
  | String "=" _ => true
  | _ => false
  end.

Definition bound_name (line : string) : option string :=
  let s := lstrip line in
  if prefix "def " s then name_at (drop 4 s)
  else if prefix "import " s then name_at (drop 7 s)
  else let (x, rest) := span is_ident_char s in
       if starts_name x && is_assignment (lstrip rest) then Some x else None.

Definition bound_names (f : fragment) : list string :=
  flat_map (fun line => match bound_name line with
                        | Some x => [x]
                        | None => []
                        end) (body f).

Definition mentioned (f : fragment) : list string :=
  flat_map (runs is_ident_char) (header f :: body f).

(** [f] is referred to by [g]: [g] mentions a name that [f] introduces. *)
Definition refers_to (g f : fragment) : bool :=
  existsb (fun x => mem x (mentioned g)) (bound_names f).

(** The lines, from 1, on which the text [p] occurs. *)
Fixpoint lines_containing (p : string) (i : nat) (lines : list string)
  : list nat :=
  match lines with
  | [] => []
  | line :: more =>
      if contains p line then i :: lines_containing p (S i) more
      else lines_containing p (S i) more
  end.

(** ** Bytes and decoders *)

Definition byte_value (b : byte) : N := Byte.to_N b.

Definition is_ascii_byte (b : byte) : bool := (byte_value b <? 128)%N.

(** Printable ASCII (space to tilde), tab and line feed. *)
Definition allowed_byte (b : byte) : bool :=
  let v := byte_value b in
  ((32 <=? v) && (v <=? 126) || (v =? 9) || (v =? 10))%N.

(** A decoder turns bytes into code points, or fails. *)
Definition decoder : Type := list byte -> option (list N).

Fixpoint decode_ascii (bs : list byte) : option (list N) :=
  match bs with
  | [] => Some []
  | b :: rest =>
      if is_ascii_byte b then option_map (cons (byte_value b)) (decode_ascii rest)
      else None
  end.

Definition decode_latin1 (bs : list byte) : option (list N) :=
  Some (map byte_value bs).

Definition is_continuation (b : byte) : bool :=
  ((128 <=? byte_value b) && (byte_value b <? 192))%N.

Definition payload (b : byte) : N := (byte_value b mod 64)%N.

(** UTF-8 as RFC 3629 has it: one to four bytes per code point, no stray or
    missing continuation byte, no overlong form, no surrogate, nothing above
    U+10FFFF. *)
Fixpoint decode_utf8 (bs : list byte) : option (list N) :=
  match bs with
  | [] => Some []
  | b0 :: t0 =>
      let v := byte_value b0 in
      if (v <? 128)%N then option_map (cons v) (decode_utf8 t0)
      else if (v <? 192)%N then None
      else if (v <? 224)%N then
        match t0 with
        | b1 :: t1 =>
            let cp := ((v mod 32) * 64 + payload b1)%N in
            if is_continuation b1 && (128 <=? cp)%N
            then option_map (cons cp) (decode_utf8 t1)
            else None
        | _ => None
        end
      else if (v <? 240)%N then
        match t0 with
        | b1 :: b2 :: t2 =>
            let cp := ((v mod 16) * 4096 + payload b1 * 64 + payload b2)%N in
            if is_continuation b1 && is_continuation b2 && (2048 <=? cp)%N
               && negb ((55296 <=? cp) && (cp <=? 57343))%N
            then option_map (cons cp) (decode_utf8 t2)
            else None
        | _ => None
        end
      else if (v <? 248)%N then
        match t0 with
        | b1 :: b2 :: b3 :: t3 =>
            let cp := ((v mod 8) * 262144 + payload b1 * 4096
                       + payload b2 * 64 + payload b3)%N in
            if is_continuation b1 && is_continuation b2 && is_continuation b3
               && (65536 <=? cp)%N && (cp <=? 1114111)%N
            then option_map (cons cp) (decode_utf8 t3)
            else None
        | _ => None
        end
      else None
  end.

(** An encoding is ASCII-compatible when it decodes a text made of ASCII
    bytes to the code points those bytes stand for in ASCII. *)
Class AsciiCompatible (decode : decoder) : Prop :=
  ascii_agrees :
    forall bs, forallb is_ascii_byte bs = true ->
               decode bs = Some (map byte_value bs).

(** ** Code and comment of a line

    On a line, [#] starts a comment unless it stands inside a string
    literal.  The file has no apostrophe and no backslash, so the only
    literals are double-quoted and hold no escape: a double quote always
    opens or closes one. *)

Fixpoint split_comment (in_string : bool) (s : string) : string * string :=
  match s with
  | EmptyString => (EmptyString, EmptyString)
  | String c rest =>
      if negb in_string && Ascii.eqb c "#" then (EmptyString, s)
      else
        let (code, comment) :=
          split_comment (xorb in_string (Ascii.eqb c DQ)) rest in
        (String c code, comment)
  end.

Fixpoint rstrip (s : string) : string :=
  match s with
  | EmptyString => EmptyString
  | String c rest =>
      match rstrip rest with
      | EmptyString => if is_blank_char c then EmptyString
                       else String c EmptyString
      | kept => String c kept
      end
  end.

(** The code of a line: the line without its comment and without the
    blanks that end it. *)
Definition code_part (line : string) : string :=
  rstrip (fst (split_comment false line)).

Definition comment_part (line : string) : string :=
  snd (split_comment false line).

Fixpoint last_char (s : string) : option ascii :=
  match s with
  | EmptyString => None
  | String c EmptyString => Some c
  | String _ rest => last_char rest
  end.

Definition ends_with (c : ascii) (s : string) : bool :=
  match last_char s with
  | Some d => Ascii.eqb d c
  | None => false
  end.

(** The code of a line with the contents of its string literals left out
    (the quotes stay). *)
Fixpoint outside_strings (in_string : bool) (s : string) : string :=
  match s with
  | EmptyString => EmptyString
  | String c rest =>
      if Ascii.eqb c DQ then String c (outside_strings (negb in_string) rest)
      else if in_string then outside_strings in_string rest
      else String c (outside_strings in_string rest)
  end.

Definition indent_width (line : string) : nat :=
  String.length (leading_ws line).

Definition is_def_line (line : string) : bool :=
  prefix "def " (lstrip line).

(** Each [def] line of a list of lines, with the line that follows it. *)
Fixpoint def_and_next (lines : list string) : list (string * string) :=
  match lines with
  | d :: ((next :: _) as more) =>
      if is_def_line d then (d, next) :: def_and_next more
      else def_and_next more
  | _ => []
  end.






(** *** Names in code position *)

Definition keywords : list string :=
  ["def"; "return"; "import"; "if"; "True"; "False"].

(** The names a line uses in its code: identifiers outside comments and
    strings that are not keywords. *)
Definition names_used (line : string) : list string :=
  filter (fun x => starts_name x && negb (mem x keywords))
         (runs is_ident_char
               (outside_strings false (fst (split_comment false line)))).

Definition builtins : list string := ["print"].

Definition introduced_in_file : list string :=
  flat_map bound_names fragments.

(** The names a fragment uses although nothing in the file introduces
    them and the language does not provide them. *)
Definition unbound_names (f : fragment) : list string :=
  filter (fun x => negb (mem x introduced_in_file || mem x builtins))
         (flat_map names_used (body f)).

(** *** Entries of a bracketed literal

    An entry line starts, after its indentation, with a string literal.
    [missing_commas] gives the entry lines that are followed by another
    entry although their code does not end with a comma. *)

Definition is_entry (line : string) : bool := prefix dq (lstrip line).

Fixpoint missing_commas (lines : list string) : list string :=
  match lines with
  | a :: ((b :: _) as more) =>
      if is_entry a && is_entry b && negb (ends_with "," (code_part a))
      then a :: missing_commas more
      else missing_commas more
  | _ => []
  end.

Definition no_fragment : fragment :=
  {| number := 0; start := 0; header := EmptyString; body := [] |}.

(** The [k]-th fragment of the file, counted from 0. *)
Definition fragment_at (k : nat) : fragment := nth k fragments no_fragment.

(** *** Paragraphs

    The maximal groups of consecutive lines that are not blank. *)
Fixpoint paragraphs_from (lines : list string)
  : list string * list (list string) :=
  match lines with
  | [] => ([], [])
  | line :: more =>
      let (para, done) := paragraphs_from more in
      if is_blank line
      then ([], match para with [] => done | _ :: _ => para :: done end)
      else (line :: para, done)
  end.

Definition paragraphs (lines : list string) : list (list string) :=
  let (para, done) := paragraphs_from lines in
  match para with [] => done | _ :: _ => para :: done end.


(** * Properties *)

(** ** Splitting and joining lines, for any text *)

Section Lines.

Lemma split_lines_nonempty (s : string) : split_lines s <> [].
Proof.
  destruct s as [|c rest]; simpl; [discriminate|].
  destruct (Ascii.eqb c LF); [discriminate|].
  destruct (split_lines rest); discriminate.
Qed.

Lemma join_lines_cons (line : string) (l : string) (more : list string) :
  join_lines (line :: l :: more) = (line ++ lf ++ join_lines (l :: more))%string.
Proof. reflexivity. Qed.

Lemma join_lines_head_char (c : ascii) (line : string) (more : list string) :
  join_lines (String c line :: more) = String c (join_lines (line :: more)).
Proof. destruct more; reflexivity. Qed.

(** Splitting loses nothing: joining the lines gives the text back. *)
Lemma join_split (s : string) : join_lines (split_lines s) = s.
Proof.
  induction s as [|c rest IH]; [reflexivity|].
  simpl split_lines.
  destruct (Ascii.eqb_spec c LF) as [->|_].
  - destruct (split_lines rest) as [|l more] eqn:E.
    + now apply split_lines_nonempty in E.
    + rewrite join_lines_cons, IH. reflexivity.
  - destruct (split_lines rest) as [|l more] eqn:E.
    + now apply split_lines_nonempty in E.
    + rewrite join_lines_head_char, IH. reflexivity.
Qed.

Lemma split_lines_line (l : string) :
  any_char is_lf l = false -> split_lines l = [l].
Proof.
  induction l as [|c l IH]; [reflexivity|].
  cbn [any_char split_lines]. unfold is_lf at 1.
  destruct (Ascii.eqb c LF); [discriminate|].
  intros H. now rewrite (IH H).
Qed.

Lemma split_lines_app (l rest : string) :
  any_char is_lf l = false ->
  split_lines (l ++ lf ++ rest)%string = l :: split_lines rest.
Proof.
  induction l as [|c l IH]; [reflexivity|].
  cbn [any_char split_lines append]. unfold is_lf at 1.
  destruct (Ascii.eqb c LF); [discriminate|].
  intros H. now rewrite (IH H).
Qed.

(** Conversely, lines that hold no line feed are what splitting their
    join gives: the two operations are inverse to each other. *)
Lemma split_join (lines : list string) :
  lines <> [] ->
  Forall (fun l => any_char is_lf l = false) lines ->
  split_lines (join_lines lines) = lines.
Proof.
  induction lines as [|l more IH]; [congruence|].
  intros _ Hall. inversion Hall as [|? ? Hl Hmore]; subst.
  destruct more as [|l' more'].
  - now apply split_lines_line.
  - rewrite join_lines_cons, split_lines_app by assumption.
    f_equal. apply IH; [discriminate|assumption].
Qed.

(** A text has one line more than it has line feeds. *)
Lemma length_split_lines (s : string) :
  length (split_lines s) = S (count_char LF s).
Proof.
  unfold count_char, positions. generalize 0.
  induction s as [|c rest IH]; intros i; [reflexivity|].
  simpl. destruct (Ascii.eqb c LF); simpl.
  - now rewrite (IH (S i)).
  - rewrite <- (IH (S i)).
    destruct (split_lines rest) eqn:E; [|reflexivity].
    now apply split_lines_nonempty in E.
Qed.

End Lines.

(** ** Labels and header numbers, for any line *)

Section Labels.

Lemma prefix_split (p s : string) :
  prefix p s = true -> exists rest, s = (p ++ rest)%string.
Proof.
  revert s. induction p as [|c p IH]; intros s H.
  - exists s. reflexivity.
  - destruct s as [|d s]; simpl in H; [discriminate|].
    destruct (ascii_dec c d) as [->|]; [|discriminate].
    destruct (IH _ H) as [rest ->]. now exists rest.
Qed.

Lemma append_assoc (a b c : string) :
  ((a ++ b) ++ c = a ++ (b ++ c))%string.
Proof. induction a as [|x a IH]; simpl; [reflexivity|now rewrite IH]. Qed.

Lemma digits_of_uint (d : Decimal.uint) :
  all_chars is_digit (NilEmpty.string_of_uint d) = true.
Proof. induction d; simpl; auto. Qed.

Lemma span_digits_dot (ds rest : string) :
  all_chars is_digit ds = true ->
  span is_digit (ds ++ String "." rest)%string = (ds, String "." rest).
Proof.
  induction ds as [|c ds IH]; simpl; [reflexivity|].
  intros H. apply andb_true_iff in H as [Hc Hds].
  now rewrite Hc, (IH Hds).
Qed.

Lemma to_uint_not_nil (n : nat) : Nat.to_uint n <> Decimal.Nil.
Proof.
  intros E. pose proof (DecimalNat.Unsigned.of_to n) as H.
  rewrite E in H. simpl in H. subst n. discriminate E.
Qed.

(** Reading the number of a line that begins with [label n] gives [n]. *)
Lemma header_number_label (n : nat) (line : string) :
  begins_with (label n) line = true -> header_number line = Some n.
Proof.
  intros H. apply prefix_split in H as [rest ->].
  unfold label. cbn [append]. rewrite append_assoc. cbn [append].
  cbn [header_number].
  rewrite span_digits_dot by apply digits_of_uint.
  destruct (NilEmpty.string_of_uint (Nat.to_uint n)) as [|d ds] eqn:E.
  - exfalso. apply (to_uint_not_nil n).
    revert E. destruct (Nat.to_uint n); simpl; intros E;
      first [discriminate E | reflexivity].
  - rewrite <- E, NilEmpty.usu. simpl.
    now rewrite DecimalNat.Unsigned.of_to.
Qed.

Lemma header_numbers_In (n : nat) (line : string) (lines : list string) :
  In line lines -> header_number line = Some n ->
  In n (header_numbers lines).
Proof.
  intros Hin Hn. unfold header_numbers. apply in_flat_map.
  exists line. split; [assumption|]. rewrite Hn. now left.
Qed.

Lemma count_positive {A : Type} (p : A -> bool) (l : list A) :
  count p l <> 0 -> exists x, In x l /\ p x = true.
Proof.
  unfold count. destruct (filter p l) as [|x rest] eqn:E;
    [intros H; now elim H|].
  intros _. exists x. apply filter_In. rewrite E. now left.
Qed.

End Labels.

(** ** Decoders, for any bytes *)

Section Decoders.

Lemma allowed_is_ascii (b : byte) :
  allowed_byte b = true -> is_ascii_byte b = true.
Proof.
  unfold allowed_byte, is_ascii_byte. cbv zeta.
  rewrite !orb_true_iff, andb_true_iff, !N.leb_le, !N.eqb_eq, N.ltb_lt.
  lia.
Qed.

Lemma forallb_allowed_ascii (bs : list byte) :
  forallb allowed_byte bs = true -> forallb is_ascii_byte bs = true.
Proof.
  rewrite !forallb_forall. intros H b Hb. apply allowed_is_ascii, H, Hb.
Qed.

#[export] Instance ascii_compatible_ascii : AsciiCompatible decode_ascii.
Proof.
  intros bs. induction bs as [|b bs IH]; [reflexivity|].
  cbn [forallb decode_ascii map]. intros H.
  apply andb_true_iff in H as [Hb Hbs].
  now rewrite Hb, (IH Hbs).
Qed.

#[export] Instance latin1_compatible_ascii : AsciiCompatible decode_latin1.
Proof. intros bs _. reflexivity. Qed.

#[export] Instance utf8_compatible_ascii : AsciiCompatible decode_utf8.
Proof.
  intros bs. induction bs as [|b bs IH]; [reflexivity|].
  cbn [forallb decode_utf8 map]. intros H.
  apply andb_true_iff in H as [Hb Hbs].
  unfold is_ascii_byte in Hb. cbv zeta.
  now rewrite Hb, (IH Hbs).
Qed.

End Decoders.

(** ** The file *)

(** The embedded text has the size of the file: 1104 bytes, 44 of them line
    feeds, none at the end. *)
Lemma file_size :
  length file_bytes = 1104 /\ count_char LF test_python_errors = 44 /\
  last file_lines EmptyString = "5 = variable_name".
Proof. vm_compute. repeat split. Qed.

(** The names the fragments introduce, fragment by fragment. *)
Lemma names_introduced :
  map bound_names fragments =
  [ ["broken_function"]; ["another_broken_function"];
    ["use_undefined_variable"]; ["type_error_example"]; ["broken_dict"];
    ["non_existent_module"]; ["invalid_call"]; ["broken_string"];
    ["mixed_indentation"]; [] ].
Proof. vm_compute. reflexivity. Qed.

(** Where the introduced names occur as plain text.  Each one occurs only
    on the line that introduces it, with one exception: [broken_function]
    (fragment 1, line 4) is also the tail of [another_broken_function]
    (fragment 2, line 9).  That is a longer, different identifier, so
    fragment 2 does not mention the name of fragment 1; identifiers are
    compared whole in [refers_to]. *)
Lemma names_occur_where_introduced :
  map (fun f => map (fun x => lines_containing x 1 file_lines)
                    (bound_names f)) fragments =
  [ [[4; 9]]; [[9]]; [[13]]; [[18]]; [[22]]; [[29]]; [[32]]; [[36]];
    [[39]]; [] ].
Proof. vm_compute. reflexivity. Qed.

(** Splits a hypothesis [1 <= n <= 10] into its ten cases. *)
Ltac cases_below k n :=
  lazymatch k with
  | O => try lia
  | S ?k' =>
      let x := fresh "k" in
      destruct n as [|x]; [try lia | cases_below k' x]
  end.

Ltac ten_cases n := cases_below 11 n.

Ltac conjuncts := repeat match goal with |- _ /\ _ => split end.

Ltac by_computation :=
  first [ vm_compute; reflexivity
        | vm_compute; discriminate
        | apply Nat.ltb_lt; vm_compute; reflexivity ].

(** C1: the file is an ordered sequence of exactly ten labelled fragments.
    There are ten header lines and their numbers, in file order, are 1 to
    10; a line can begin with [# m.] only for [m] from 1 to 10; and for
    every [n] from 1 to 10 exactly one line begins with [# n.], it opens
    fragment [n], and the line right after it exists, carries text and is
    not a header, so that the fragment has a snippet before the next
    header. *)
Theorem ten_labelled_fragments (n : nat) (Hn : 1 <= n <= 10) :
  length fragments = 10 /\
  header_numbers file_lines = seq 1 10 /\
  (forall m, count (begins_with (label m)) file_lines <> 0 -> 1 <= m <= 10) /\
  count (begins_with (label n)) file_lines = 1 /\
  exists f,
    fragment_no n = Some f /\
    header_line n = Some (start f) /\
    header f = line_at (start f) /\
    snippet f <> [] /\
    forallb (fun line => negb (is_header line)) (body f) = true /\
    start f < length file_lines /\
    is_blank (line_at (S (start f))) = false /\
    is_header (line_at (S (start f))) = false.
Proof.
  assert (Hnum : header_numbers file_lines = seq 1 10) by by_computation.
  split; [by_computation|]. split; [exact Hnum|]. split.
  - intros m Hm. apply count_positive in Hm as (line & Hin & Hline).
    apply header_number_label in Hline.
    pose proof (header_numbers_In _ _ _ Hin Hline) as H.
    rewrite Hnum in H. apply in_seq in H. lia.
  - ten_cases n; (split; [by_computation|]);
      eexists; (split; [vm_compute; reflexivity|]);
      conjuncts; by_computation.
Qed.

Lemma ten_labelled_fragments_witness :
  1 <= 7 <= 10 /\ count (begins_with (label 7)) file_lines = 1.
Proof.
  split; [lia | apply (ten_labelled_fragments 7); lia].
Defined.

(** C4: the labels stand in increasing order, and nothing else ties two
    fragments together.  For header numbers [m < n], header [m] is on an
    earlier line than header [n]; the text of each label occurs in the file
    on the line of its own header and nowhere else; and neither fragment
    mentions a name the other introduces (names compared as whole
    identifiers). *)
Theorem headers_in_file_order (m n : nat)
  (Hm : 1 <= m) (Hmn : m < n) (Hn : n <= 10) :
  exists f g,
    fragment_no m = Some f /\ fragment_no n = Some g /\
    header_line m = Some (start f) /\ header_line n = Some (start g) /\
    start f < start g /\
    lines_containing (label m) 1 file_lines = [start f] /\
    lines_containing (label n) 1 file_lines = [start g] /\
    refers_to f g = false /\ refers_to g f = false.
Proof.
  ten_cases m; ten_cases n;
    eexists; eexists; (split; [vm_compute; reflexivity|]);
    (split; [vm_compute; reflexivity|]);
    conjuncts; by_computation.
Qed.

Lemma headers_in_file_order_witness :
  exists f g,
    fragment_no 1 = Some f /\ fragment_no 10 = Some g /\
    header_line 1 = Some (start f) /\ header_line 10 = Some (start g) /\
    start f < start g /\
    lines_containing (label 1) 1 file_lines = [start f] /\
    lines_containing (label 10) 1 file_lines = [start g] /\
    refers_to f g = false /\ refers_to g f = false.
Proof.
  apply (headers_in_file_order 1 10); lia.
Defined.

(** C6: the file is read as lines without loss.  Cutting the text at its
    line feeds gives 45 lines, joining them with line feeds gives the text
    back exactly, and cutting the joined lines gives the same lines. *)
Theorem lines_round_trip :
  join_lines (split_lines test_python_errors) = test_python_errors /\
  split_lines (join_lines file_lines) = file_lines /\
  length file_lines = 45.
Proof.
  split; [apply join_split|]. split.
  - unfold file_lines. now rewrite join_split.
  - unfold file_lines. rewrite length_split_lines. by_computation.
Qed.

(** The mistakes the ten headers name, in file order. *)
Lemma mistakes_named :
  map (fun f => (error_kind (header f), mistake (header f))) fragments =
  [ ("Syntax Error", "Invalid indentation");
    ("Syntax Error", "Missing colon");
    ("Name Error", "Undefined variable");
    ("Type Error", "Unsupported operation");
    ("Syntax Error", "Invalid dictionary");
    ("Import Error", "Non-existent module");
    ("Syntax Error", "Invalid function call");
    ("Syntax Error", "Unclosed string");
    ("Indentation Error", "Mixed tabs and spaces");
    ("Syntax Error", "Invalid assignment") ].
Proof. vm_compute. reflexivity. Qed.

Lemma named_class (f : fragment) :
  classes_named (header f) <> [] ->
  exists c, In c spec_classes /\ names (header f) c = true.
Proof.
  intros Hf. destruct (classes_named (header f)) as [|c cs] eqn:E;
    [congruence|].
  exists c. apply filter_In. unfold classes_named in E. rewrite E. now left.
Qed.

(** C3, as stated, fails: it is not the case that every fragment's header
    names a mistake of the nine-class list.  The header of fragment 7,
    [Syntax Error - Invalid function call], names none of the nine. *)
Lemma invalid_function_call_not_listed :
  ~ (forall n, 1 <= n <= 10 ->
       exists f c, fragment_no n = Some f /\ In c spec_classes /\
                   names (header f) c = true).
Proof.
  intros H. destruct (H 7) as (f & c & Hf & _ & Hc); [lia|].
  vm_compute in Hf. injection Hf as <-.
  destruct c; vm_compute in Hc; discriminate Hc.
Qed.

(** C3, amended: every fragment other than fragment 7 has a header that
    names a mistake of the nine-class list.  The classes the ten headers
    name are, in file order: bad indentation; missing colon; undefined name;
    type mismatch; malformed literal; bad import; none; unclosed string; bad
    indentation and mixed whitespace; invalid assignment target.  So each of
    the nine classes is illustrated, and fragment 7 ([Invalid function
    call]) illustrates a tenth kind of mistake. *)
Theorem fragments_name_listed_classes (n : nat)
  (Hn : 1 <= n <= 10) (H7 : n <> 7) :
  (exists f c, fragment_no n = Some f /\ In c spec_classes /\
               names (header f) c = true) /\
  map (fun f => classes_named (header f)) fragments =
    [ [BadIndentation]; [MissingColon]; [UndefinedName]; [TypeMismatch];
      [MalformedLiteral]; [BadImport]; []; [UnclosedString];
      [BadIndentation; MixedWhitespace]; [InvalidAssignmentTarget] ] /\
  (forall c, exists f, In f fragments /\ names (header f) c = true).
Proof.
  split; [|split; [by_computation|]].
  - ten_cases n; try congruence;
      lazymatch goal with
      | |- exists f c, fragment_no ?k = Some f /\ _ =>
          let found := eval vm_compute in (fragment_no k) in
          lazymatch found with
          | Some ?f0 =>
              destruct (named_class f0) as (c & Hin & Hc);
                [by_computation|];
              exists f0, c; split; [by_computation | split; assumption]
          end
      end.
  - intros c.
    destruct c;
      [ exists (nth 0 fragments (Build_fragment 0 0 EmptyString []))
      | exists (nth 1 fragments (Build_fragment 0 0 EmptyString []))
      | exists (nth 2 fragments (Build_fragment 0 0 EmptyString []))
      | exists (nth 3 fragments (Build_fragment 0 0 EmptyString []))
      | exists (nth 4 fragments (Build_fragment 0 0 EmptyString []))
      | exists (nth 5 fragments (Build_fragment 0 0 EmptyString []))
      | exists (nth 7 fragments (Build_fragment 0 0 EmptyString []))
      | exists (nth 8 fragments (Build_fragment 0 0 EmptyString []))
      | exists (nth 9 fragments (Build_fragment 0 0 EmptyString [])) ];
      (split; [apply nth_In; by_computation | by_computation]).
Qed.

Lemma fragments_name_listed_classes_witness :
  exists f c, fragment_no 9 = Some f /\ In c spec_classes /\
              names (header f) c = true.
Proof.
  apply (fragments_name_listed_classes 9); [lia | discriminate].
Defined.

(** C7: fragment 8 shows an unclosed string.  Its header names the class,
    its snippet is the single line that assigns [broken_string], and that
    line holds exactly one double quote, at column 16: an odd number, and
    from the character after it to the end of the line no quote closes the
    literal. *)
Theorem fragment_8_unclosed_string :
  exists f line,
    fragment_no 8 = Some f /\
    names (header f) UnclosedString = true /\
    snippet f = [line] /\
    bound_name line = Some "broken_string" /\
    positions DQ line = [16] /\
    Nat.odd (count_char DQ line) = true /\
    drop 17 line = "This string is not closed" /\
    count_char DQ (drop 17 line) = 0.
Proof.
  eexists. eexists.
  split; [vm_compute; reflexivity|].
  split; [by_computation|].
  split; [vm_compute; reflexivity|].
  conjuncts; by_computation.
Qed.

(** C8: fragment 9 mixes tabs and spaces.  Its header names the class, and
    among its lines there is one (line 41 of the file) indented with spaces
    only and another (line 42) whose indentation holds a tab. *)
Theorem fragment_9_mixed_whitespace :
  exists f spaced tabbed,
    fragment_no 9 = Some f /\
    names (header f) MixedWhitespace = true /\
    spaced = line_at 41 /\ tabbed = line_at 42 /\
    In spaced (body f) /\ In tabbed (body f) /\ spaced <> tabbed /\
    leading_ws spaced <> EmptyString /\
    all_chars (fun c => Ascii.eqb c SP) (leading_ws spaced) = true /\
    any_char (fun c => Ascii.eqb c HT) (leading_ws tabbed) = true.
Proof.
  eexists. exists (line_at 41), (line_at 42).
  split; [vm_compute; reflexivity|].
  split; [by_computation|].
  split; [reflexivity|]. split; [reflexivity|].
  split; [vm_compute; auto 10|]. split; [vm_compute; auto 10|].
  conjuncts; by_computation.
Qed.

(** C10: the file is plain ASCII.  Every byte of it is a printable ASCII
    character (32 to 126), a tab (9) or a line feed (10); hence a decoder
    for an ASCII-compatible encoding does not fail on it and returns, byte
    for byte, the code points of the text.  UTF-8, strict ASCII and Latin-1
    are such encodings. *)
Theorem file_is_plain_ascii (decode : decoder) (C : AsciiCompatible decode) :
  forallb allowed_byte file_bytes = true /\
  (forall b, In b file_bytes ->
     (32 <= byte_value b <= 126 \/ byte_value b = 9 \/ byte_value b = 10)%N) /\
  decode file_bytes = Some (map byte_value file_bytes) /\
  decode_utf8 file_bytes = Some (map byte_value file_bytes).
Proof.
  assert (Hall : forallb allowed_byte file_bytes = true) by by_computation.
  split; [exact Hall|]. split.
  - intros b Hb. rewrite forallb_forall in Hall. specialize (Hall b Hb).
    unfold allowed_byte in Hall. cbv zeta in Hall.
    rewrite !orb_true_iff, andb_true_iff, !N.leb_le, !N.eqb_eq in Hall.
    lia.
  - split; apply ascii_agrees, forallb_allowed_ascii, Hall.
Qed.

Lemma file_is_plain_ascii_witness :
  decode_ascii file_bytes = Some (map byte_value file_bytes).
Proof.
  apply (file_is_plain_ascii decode_ascii ascii_compatible_ascii).
Defined.

(** ** What the snippets show, fragment by fragment *)

Section Checks.

(** A check that holds, by evaluation, of every line of every fragment
    holds of any line one may pick. *)
Lemma checked_on_all_lines (P : fragment -> string -> bool) :
  forallb (fun f => forallb (P f) (body f)) fragments = true ->
  forall f line, In f fragments -> In line (body f) -> P f line = true.
Proof.
  intros H f line Hf Hline.
  rewrite forallb_forall in H. specialize (H f Hf).
  rewrite forallb_forall in H. exact (H line Hline).
Qed.

Lemma fragment_at_In (k : nat) :
  (k <? length fragments)%nat = true -> In (fragment_at k) fragments.
Proof. intros H. apply nth_In, Nat.ltb_lt, H. Qed.

Lemma mem_In (x : string) (l : list string) : mem x l = true -> In x l.
Proof.
  unfold mem. rewrite existsb_exists. intros (y & Hy & E).
  apply String.eqb_eq in E. now subst.
Qed.

(** Non-blank lines are kept by [paragraphs], in order, and nothing else
    is. *)
Lemma paragraphs_from_concat (lines : list string) :
  (fst (paragraphs_from lines) ++ concat (snd (paragraphs_from lines)))%list
  = filter (fun line => negb (is_blank line)) lines.
Proof.
  induction lines as [|line more IH]; [reflexivity|].
  cbn [paragraphs_from filter].
  destruct (paragraphs_from more) as [para done]. cbn [fst snd] in IH.
  destruct (is_blank line); cbn [negb fst snd].
  - rewrite <- IH. destruct para; reflexivity.
  - rewrite <- IH. reflexivity.
Qed.

Lemma paragraphs_concat (lines : list string) :
  concat (paragraphs lines) = filter (fun line => negb (is_blank line)) lines.
Proof.
  rewrite <- paragraphs_from_concat. unfold paragraphs.
  destruct (paragraphs_from lines) as [para done]. cbn [fst snd].
  destruct para; reflexivity.
Qed.

End Checks.

(** The scanners above read a double quote as the start or the end of a
    literal and [#] outside a literal as the start of a comment.  That is
    exact for this file: it has no apostrophe and no backslash, hence no
    other kind of literal and no escaped quote. *)
Lemma no_apostrophe_no_backslash :
  count_char "'" test_python_errors = 0 /\
  count_char "\" test_python_errors = 0.
Proof. vm_compute. split; reflexivity. Qed.

(** X1: of the [def] lines of the file, the one of fragment 2 ("Missing
    colon") is the only one whose code does not end with a colon. *)
Theorem only_fragment_2_def_lacks_colon (f : fragment) (line : string)
  (Hf : In f fragments) (Hline : In line (body f))
  (Hdef : is_def_line line = true) :
  ends_with ":" (code_part line) = false <-> number f = 2.
Proof.
  pose proof (checked_on_all_lines
    (fun f line => implb (is_def_line line)
       (Bool.eqb (negb (ends_with ":" (code_part line))) (number f =? 2)%nat))
    ltac:(vm_compute; reflexivity) f line Hf Hline) as H.
  cbv beta in H. rewrite Hdef in H. cbn [implb] in H.
  apply Bool.eqb_prop in H.
  destruct (ends_with ":" (code_part line)), (Nat.eqb_spec (number f) 2);
    cbn in H; split; congruence.
Qed.

Lemma only_fragment_2_def_lacks_colon_witness :
  ends_with ":" (code_part (line_at 9)) = false <-> number (fragment_at 1) = 2.
Proof.
  apply (only_fragment_2_def_lacks_colon (fragment_at 1) (line_at 9)).
  - apply fragment_at_In. vm_compute. reflexivity.
  - apply mem_In. vm_compute. reflexivity.
  - vm_compute. reflexivity.
Defined.

(** X2: the line after a [def] line is indented four columns deeper than
    the [def], by spaces, in every fragment but fragment 1 ("Invalid
    indentation"), where it is not indented deeper at all. *)
Theorem only_fragment_1_body_not_indented (f : fragment) (d next : string)
  (Hf : In f fragments) (Hd : In (d, next) (def_and_next (body f))) :
  (indent_width next <= indent_width d <-> number f = 1) /\
  (number f <> 1 ->
     indent_width next = indent_width d + 4 /\
     all_chars (fun c => Ascii.eqb c SP) (leading_ws next) = true).
Proof.
  assert (H : forallb (fun f => forallb (fun p =>
              let w0 := indent_width (fst p) in
              let w := indent_width (snd p) in
              if (number f =? 1)%nat then (w <=? w0)%nat
              else (w =? w0 + 4)%nat
                   && all_chars (fun c => Ascii.eqb c SP) (leading_ws (snd p)))
            (def_and_next (body f))) fragments = true)
    by (vm_compute; reflexivity).
  rewrite forallb_forall in H. specialize (H f Hf).
  rewrite forallb_forall in H. specialize (H (d, next) Hd).
  cbv beta zeta in H. cbn [fst snd] in H.
  destruct (Nat.eqb_spec (number f) 1) as [E|E].
  - apply Nat.leb_le in H. split; [tauto | congruence].
  - apply andb_true_iff in H as [Hw Hsp]. apply Nat.eqb_eq in Hw.
    split; [split; [lia | congruence] | intros _; split; assumption].
Qed.

Lemma only_fragment_1_body_not_indented_witness :
  indent_width (line_at 5) <= indent_width (line_at 4)
  <-> number (fragment_at 0) = 1.
Proof.
  apply (only_fragment_1_body_not_indented
           (fragment_at 0) (line_at 4) (line_at 5)).
  - apply fragment_at_In. vm_compute. reflexivity.
  - vm_compute. left. reflexivity.
Defined.

(** X3: in the dictionary of fragment 5 the comma is missing at the end of
    line 24 (the ["key2"] entry, which another entry follows), and nowhere
    else in the file; that line carries no comment.  The comment [# Missing
    comma] stands on line 25, the entry after it. *)
Theorem missing_comma_is_one_line_above_its_comment :
  missing_commas file_lines = [line_at 24] /\
  comment_part (line_at 24) = EmptyString /\
  lines_containing "# Missing comma" 1 file_lines = [25] /\
  map (fun f => (number f, missing_commas (body f)))
      (filter (fun f => negb (length (missing_commas (body f)) =? 0)%nat)
              fragments)
  = [(5, [line_at 24])].
Proof. conjuncts; vm_compute; reflexivity. Qed.



(** X5: names used in code that nothing introduces.  Leaving aside the
    built-in [print], they are found in fragment 3 ("Undefined variable"),
    as its header says, but also in fragment 7 (the called function and
    both arguments) and in fragment 10 (the right side of the
    assignment). *)
Theorem unbound_names_by_fragment :
  map (fun f => (number f, unbound_names f))
      (filter (fun f => negb (length (unbound_names f) =? 0)%nat) fragments)
  = [ (3, ["undefined_variable"; "result"]);
      (7, ["some_function"; "param1"; "param2"]);
      (10, ["variable_name"]) ].
Proof. vm_compute. reflexivity. Qed.

(** X6: blank lines and headers cut the file the same way.  The paragraphs
    of the file are its first line and then, for each fragment in order,
    the header followed by the snippet; so no snippet holds a blank line
    and every header follows one. *)
Theorem paragraphs_are_fragments :
  paragraphs file_lines =
  [line_at 1] :: map (fun f => header f :: snippet f) fragments.
Proof. vm_compute. reflexivity. Qed.

(** X7: a comma stands right before a closing parenthesis on one line of
    code only, in fragment 7, and it is the line commented [# Trailing
    comma in wrong place]. *)
Theorem only_fragment_7_has_trailing_comma (f : fragment) (line : string)
  (Hf : In f fragments) (Hline : In line (body f))
  (Hcomma : contains ",)" (code_part line) = true) :
  number f = 7 /\ line = line_at 33 /\
  comment_part line = "# Trailing comma in wrong place".
Proof.
  pose proof (checked_on_all_lines
    (fun f line =>
       implb (contains ",)" (code_part line))
             ((number f =? 7)%nat && String.eqb line (line_at 33)
              && String.eqb (comment_part line)
                            "# Trailing comma in wrong place"))
    ltac:(vm_compute; reflexivity) f line Hf Hline) as H.
  cbv beta in H. rewrite Hcomma in H. cbn [implb] in H.
  apply andb_true_iff in H as [H Hc]. apply andb_true_iff in H as [Hn Hl].
  apply Nat.eqb_eq in Hn. apply String.eqb_eq in Hl, Hc. tauto.
Qed.

Lemma only_fragment_7_has_trailing_comma_witness :
  number (fragment_at 6) = 7 /\ line_at 33 = line_at 33 /\
  comment_part (line_at 33) = "# Trailing comma in wrong place".
Proof.
  apply (only_fragment_7_has_trailing_comma (fragment_at 6) (line_at 33)).
  - apply fragment_at_In. vm_compute. reflexivity.
  - apply mem_In. vm_compute. reflexivity.
  - vm_compute. reflexivity.
Defined.



(** X9: the file holds a single tab.  A line of a fragment holds a tab
    exactly when its comment is [# This line uses tabs]; that line is in
    fragment 9 and the tab is its indentation. *)
Theorem the_only_tab_is_on_the_line_that_says_so
  (f : fragment) (line : string)
  (Hf : In f fragments) (Hline : In line (body f)) :
  count_char HT test_python_errors = 1 /\
  (any_char (fun c => Ascii.eqb c HT) line = true <->
   comment_part line = "# This line uses tabs") /\
  (any_char (fun c => Ascii.eqb c HT) line = true ->
   number f = 9 /\ leading_ws line = ht).
Proof.
  split; [vm_compute; reflexivity|].
  pose proof (checked_on_all_lines
    (fun f line =>
       let tab := any_char (fun c => Ascii.eqb c HT) line in
       Bool.eqb tab (String.eqb (comment_part line) "# This line uses tabs")
       && implb tab ((number f =? 9)%nat && String.eqb (leading_ws line) ht))
    ltac:(vm_compute; reflexivity) f line Hf Hline) as H.
  cbv beta zeta in H. apply andb_true_iff in H as [Heq Himp].
  apply Bool.eqb_prop in Heq. split.
  - rewrite Heq. apply String.eqb_eq.
  - intros Ht. rewrite Ht in Himp. cbn [implb] in Himp.
    apply andb_true_iff in Himp as [Hn Hw].
    apply Nat.eqb_eq in Hn. apply String.eqb_eq in Hw. tauto.
Qed.

Lemma the_only_tab_is_on_the_line_that_says_so_witness :
  count_char HT test_python_errors = 1 /\
  (any_char (fun c => Ascii.eqb c HT) (line_at 42) = true <->
   comment_part (line_at 42) = "# This line uses tabs") /\
  (any_char (fun c => Ascii.eqb c HT) (line_at 42) = true ->
   number (fragment_at 8) = 9 /\ leading_ws (line_at 42) = ht).
Proof.
  apply (the_only_tab_is_on_the_line_that_says_so (fragment_at 8)).
  - apply fragment_at_In. vm_compute. reflexivity.
  - apply mem_In. vm_compute. reflexivity.
Defined.
